(** * Checkpoint hooks of the trainer

    A shallow embedding of [colossalai/trainer/hooks/_checkpoint_hook.py]:
    the two lifecycle hooks [SaveCheckpointHook] and [LoadCheckpointHook].

    Both hooks are thin coordination code around collaborators that live
    elsewhere (the trainer, the checkpoint path resolvers, [os.path],
    [torch.distributed], the logger).  The collaborators are an interface
    here, the class [Collaborators]; the hooks are programs in a small
    state-and-exception monad that records every collaborator call in a
    trace, so that "is invoked", "exactly once" and "precedes" are
    statements about that trace. *)

From Stdlib Require Import ZArith List String Bool Lia DecimalString.
Import ListNotations.

Local Open Scope Z_scope.

(** ** Python values and exceptions *)

(** The exceptions that can leave a hook: the two the hook code can raise
    by itself, and whatever a collaborator raises. *)
Inductive exn : Type :=
| ZeroDivisionError
| FileNotFoundError (msg : string)
| CollaboratorError (what : string).

Inductive result (A : Type) : Type :=
| Ok (a : A)
| Raise (e : exn).

Arguments Ok {A} a.
Arguments Raise {A} e.

(** [a % b] on Python integers: the floored remainder, whose sign is the
    divisor's as with [Z.modulo], and an exception for a zero divisor. *)
Definition py_mod (a b : Z) : result Z :=
  if b =? 0 then Raise ZeroDivisionError else Ok (a mod b).

(** [str(n)] of a Python integer, as an f-string interpolates it. *)
Definition str_of_int (n : Z) : string :=
  NilZero.string_of_int (Z.to_int n).

(** [str(d)] of a [str]-or-[None] value, as an f-string interpolates it. *)
Definition str_of_opt (d : option string) : string :=
  match d with
  | Some s => s
  | None => "None"%string
  end.

(** ** Collaborator calls *)

(** One constructor per call that leaves the hook, with its arguments. *)
Inductive event : Type :=
| EvCurEpoch
| EvIsDpRank0
| EvSave (path : option string) (suffix : string)
| EvLogInfo (msg : string)
| EvIsInitialized
| EvBarrier
| EvGetLatestCheckpointPath (dir : option string)
| EvGetCheckpointPath (dir : option string) (epoch : Z)
| EvExists (path : string)
| EvLoad (path : string) (finetune strict : bool).

(** The collaborators over a world [W] (file system, process group,
    trainer state).  Queries read the world; the resolvers read it and may
    raise; the commands may change it and may raise. *)
Class Collaborators (W : Type) : Type := {
  cur_epoch_impl : W -> Z;
  is_dp_rank_0_impl : W -> bool;
  is_initialized_impl : W -> bool;
  exists_impl : string -> W -> bool;
  get_latest_checkpoint_path_impl : option string -> W -> result string;
  get_checkpoint_path_impl : option string -> Z -> W -> result string;
  save_impl : option string -> string -> W -> result unit * W;
  load_impl : string -> bool -> bool -> W -> result unit * W;
  info_impl : string -> W -> result unit * W;
  barrier_impl : W -> result unit * W
}.

(** ** The monad of hook code *)

Record state (W : Type) : Type := mkState {
  world : W;
  trace : list event
}.

Arguments mkState {W} world trace.
Arguments world {W} s.
Arguments trace {W} s.

Definition M (W A : Type) : Type := state W -> result A * state W.

Definition ret {W A : Type} (a : A) : M W A :=
  fun s => (Ok a, s).

Definition bind {W A B : Type} (m : M W A) (k : A -> M W B) : M W B :=
  fun s =>
    match m s with
    | (Ok a, s') => k a s'
    | (Raise e, s') => (Raise e, s')
    end.

Definition raise {W A : Type} (e : exn) : M W A :=
  fun s => (Raise e, s).

Definition lift {W A : Type} (r : result A) : M W A :=
  fun s => (r, s).

Definition emit {W : Type} (ev : event) : M W unit :=
  fun s => (Ok tt, mkState (world s) (trace s ++ [ev])).

Notation "x <- m ;; k" := (bind m (fun x => k))
  (at level 61, m at next level, right associativity).
Notation "m ;; k" := (bind m (fun _ => k))
  (at level 61, right associativity).

(** A query: recorded, answered from the world, world untouched. *)
Definition query {W A : Type} (ev : event) (f : W -> A) : M W A :=
  emit ev ;; fun s => (Ok (f (world s)), s).

(** A resolver: recorded, answered from the world, may raise. *)
Definition resolver {W A : Type} (ev : event) (f : W -> result A) : M W A :=
  emit ev ;; fun s => (f (world s), s).

(** A command: recorded, then run on the world. *)
Definition command {W A : Type} (ev : event) (f : W -> result A * W) : M W A :=
  emit ev ;;
  fun s => let (r, w) := f (world s) in (r, mkState w (trace s)).

(** A hook called in world [w], from an empty trace. *)
Definition run {W A : Type} (m : M W A) (w : W) : result A * state W :=
  m (mkState w []).

Section Calls.
Context {W : Type} `{Collaborators W}.

Definition trainer_cur_epoch : M W Z :=
  query EvCurEpoch cur_epoch_impl.

Definition is_dp_rank_0 : M W bool :=
  query EvIsDpRank0 is_dp_rank_0_impl.

Definition dist_is_initialized : M W bool :=
  query EvIsInitialized is_initialized_impl.

Definition osp_exists (path : string) : M W bool :=
  query (EvExists path) (exists_impl path).

Definition get_latest_checkpoint_path (dir : option string) : M W string :=
  resolver (EvGetLatestCheckpointPath dir)
           (get_latest_checkpoint_path_impl dir).

Definition get_checkpoint_path (dir : option string) (epoch : Z)
  : M W string :=
  resolver (EvGetCheckpointPath dir epoch)
           (get_checkpoint_path_impl dir epoch).

Definition trainer_save (path : option string) (suffix : string)
  : M W unit :=
  command (EvSave path suffix) (save_impl path suffix).

Definition trainer_load (path : string) (finetune strict : bool)
  : M W unit :=
  command (EvLoad path finetune strict) (load_impl path finetune strict).

Definition logger_info (msg : string) : M W unit :=
  command (EvLogInfo msg) (info_impl msg).

Definition dist_barrier : M W unit :=
  command EvBarrier barrier_impl.
End Calls.

(** ** SaveCheckpointHook *)

Module SaveCheckpointHook.

(** The attributes [__init__] stores.  The trainer the hook is attached to
    belongs to the world: its [cur_epoch] and [save] are collaborators. *)
Record t : Type := init {
  interval : Z;
  checkpoint_dir : option string;
  suffix : string;
  priority : Z
}.

(** The keyword defaults of [__init__]. *)
Definition default : t := init 1 None EmptyString 0.

Section Methods.
Context {W : Type} `{Collaborators W}.

Definition after_train_epoch (self : t) : M W unit :=
  e <- trainer_cur_epoch ;;
  r <- lift (py_mod e (interval self)) ;;
  if r =? 0 then
    rank0 <- is_dp_rank_0 ;;
    (if rank0 : bool then
       trainer_save (checkpoint_dir self) (suffix self) ;;
       e' <- trainer_cur_epoch ;;
       logger_info ("checkpoint for epoch " ++ str_of_int e'
                    ++ " is saved to "
                    ++ str_of_opt (checkpoint_dir self))%string
     else ret tt) ;;
    active <- dist_is_initialized ;;
    if active : bool then dist_barrier else ret tt
  else ret tt.
End Methods.

End SaveCheckpointHook.

(** ** LoadCheckpointHook *)

Module LoadCheckpointHook.

(** The attributes [__init__] stores; the trainer's [load] is a
    collaborator. *)
Record t : Type := init {
  checkpoint_dir : option string;
  epoch : Z;
  finetune : bool;
  strict : bool;
  priority : Z
}.

(** The keyword defaults of [__init__]. *)
Definition default : t := init None (-1) false false 10.

Section Methods.
Context {W : Type} `{Collaborators W}.

Definition before_train (self : t) : M W unit :=
  path <- (if epoch self =? -1
           then get_latest_checkpoint_path (checkpoint_dir self)
           else get_checkpoint_path (checkpoint_dir self) (epoch self)) ;;
  found <- osp_exists path ;;
  (if found : bool then
     trainer_load path (finetune self) (strict self) ;;
     logger_info ("loaded checkpoint from " ++ path)%string
   else
     raise (FileNotFoundError
              ("checkpoint is not found at " ++ path)%string)) ;;
  active <- dist_is_initialized ;;
  if active : bool then dist_barrier else ret tt.
End Methods.

End LoadCheckpointHook.

(** ** Reading a trace *)

Definition is_save (ev : event) : bool :=
  match ev with EvSave _ _ => true | _ => false end.

Definition is_load (ev : event) : bool :=
  match ev with EvLoad _ _ _ => true | _ => false end.

Definition is_barrier (ev : event) : bool :=
  match ev with EvBarrier => true | _ => false end.

Definition is_rank_query (ev : event) : bool :=
  match ev with EvIsDpRank0 => true | _ => false end.

Definition is_exists (ev : event) : bool :=
  match ev with EvExists _ => true | _ => false end.

Definition is_latest_query (ev : event) : bool :=
  match ev with EvGetLatestCheckpointPath _ => true | _ => false end.

Definition is_epoch_query (ev : event) : bool :=
  match ev with EvGetCheckpointPath _ _ => true | _ => false end.

Definition is_resolution (ev : event) : bool :=
  is_latest_query ev || is_epoch_query ev.

(** How many calls of a kind a trace holds, and whether it holds any. *)
Definition calls (p : event -> bool) (tr : list event) : nat :=
  List.length (filter p tr).

Definition called (p : event -> bool) (tr : list event) : bool :=
  existsb p tr.

(** Every [p] call of the trace happens strictly before every [q] call. *)
Definition precedes (p q : event -> bool) (tr : list event) : Prop :=
  forall (i j : nat) (a b : event),
    nth_error tr i = Some a -> p a = true ->
    nth_error tr j = Some b -> q b = true ->
    (i < j)%nat.

(** The same, as a check: from the first [q] call on there is no [p] call. *)
Fixpoint precedesb (p q : event -> bool) (tr : list event) : bool :=
  match tr with
  | [] => true
  | ev :: tr' =>
      if q ev then negb (existsb p tr) else precedesb p q tr'
  end.

(** ** A simulated world

    A test double of the collaborators: a file system as the list of the
    paths that exist, a disk that works or not, a process group that is
    initialised or not and counts barrier arrivals. *)

Record sim : Type := mkSim {
  sim_epoch : Z;
  sim_rank0 : bool;
  sim_dist : bool;
  sim_files : list string;
  sim_latest : option string;
  sim_disk_ok : bool;
  sim_arrived : nat
}.

Definition sim_path (dir : option string) (epoch : Z) (suffix : string)
  : string :=
  (str_of_opt dir ++ "/epoch_" ++ str_of_int epoch ++ suffix ++ ".pt")%string.

Definition sim_save (dir : option string) (suffix : string) (w : sim)
  : result unit * sim :=
  if sim_disk_ok w then
    (Ok tt,
     mkSim (sim_epoch w) (sim_rank0 w) (sim_dist w)
           (sim_path dir (sim_epoch w) suffix :: sim_files w)
           (Some (sim_path dir (sim_epoch w) suffix))
           (sim_disk_ok w) (sim_arrived w))
  else (Raise (CollaboratorError "StorageFailure"), w).

Definition sim_load (path : string) (finetune strict : bool) (w : sim)
  : result unit * sim :=
  if sim_disk_ok w then (Ok tt, w)
  else (Raise (CollaboratorError "StorageFailure"), w).

Definition sim_barrier (w : sim) : result unit * sim :=
  (Ok tt,
   mkSim (sim_epoch w) (sim_rank0 w) (sim_dist w) (sim_files w)
         (sim_latest w) (sim_disk_ok w) (S (sim_arrived w))).

#[export] Instance sim_collaborators : Collaborators sim := {
  cur_epoch_impl := sim_epoch;
  is_dp_rank_0_impl := sim_rank0;
  is_initialized_impl := sim_dist;
  exists_impl := fun path w => existsb (String.eqb path) (sim_files w);
  get_latest_checkpoint_path_impl := fun _ w =>
    match sim_latest w with
    | Some p => Ok p
    | None => Raise (CollaboratorError "no checkpoint")
    end;
  get_checkpoint_path_impl := fun dir epoch _ => Ok (sim_path dir epoch EmptyString);
  save_impl := sim_save;
  load_impl := sim_load;
  info_impl := fun _ w => (Ok tt, w);
  barrier_impl := sim_barrier
}.

(** A world at epoch [e]: rank and process group as given, an empty
    checkpoint directory, a working disk. *)
Definition sim_at (e : Z) (rank0 dist : bool) : sim :=
  mkSim e rank0 dist [] None true 0.

(** A world before training, holding the files [files]. *)
Definition sim_with (files : list string) (latest : option string)
           (disk_ok dist : bool) : sim :=
  mkSim 0 true dist files latest disk_ok 0.

(** The hooks of the scenarios. *)
Definition save_every_2 : SaveCheckpointHook.t :=
  SaveCheckpointHook.init 2 (Some "/ckpt"%string) EmptyString 0.

Definition save_every_0 : SaveCheckpointHook.t :=
  SaveCheckpointHook.init 0 (Some "/ckpt"%string) EmptyString 0.

Definition load_latest : LoadCheckpointHook.t :=
  LoadCheckpointHook.init (Some "/ckpt"%string) (-1) false true 10.

Definition load_epoch (e : Z) : LoadCheckpointHook.t :=
  LoadCheckpointHook.init (Some "/ckpt"%string) e true false 10.

(** A world whose checkpoint directory holds the checkpoint of epoch 7. *)
Definition sim_ckpt7 (disk_ok dist : bool) : sim :=
  sim_with ["/ckpt/epoch_7.pt"%string] (Some "/ckpt/epoch_7.pt"%string)
           disk_ok dist.

(** ** A single-process world

    The world is the epoch counter alone: this process is the primary
    rank, no process group is initialised, no checkpoint exists, and no
    primitive fails. *)
#[export] Instance lone_collaborators : Collaborators Z := {
  cur_epoch_impl := fun e => e;
  is_dp_rank_0_impl := fun _ => true;
  is_initialized_impl := fun _ => false;
  exists_impl := fun _ _ => false;
  get_latest_checkpoint_path_impl := fun dir _ => Ok (str_of_opt dir);
  get_checkpoint_path_impl := fun dir _ _ => Ok (str_of_opt dir);
  save_impl := fun _ _ e => (Ok tt, e);
  load_impl := fun _ _ _ e => (Ok tt, e);
  info_impl := fun _ e => (Ok tt, e);
  barrier_impl := fun e => (Ok tt, e)
}.

(** ** The full call sequence of each hook

    More ways to read a trace, and the calls of the longest run of each
    hook: the one in which no collaborator raises and the process group is
    initialised. *)

Definition is_info (ev : event) : bool :=
  match ev with EvLogInfo _ => true | _ => false end.

Definition is_epoch_read (ev : event) : bool :=
  match ev with EvCurEpoch => true | _ => false end.

Definition is_group_query (ev : event) : bool :=
  match ev with EvIsInitialized => true | _ => false end.

(** [tr] is an initial segment of [full]. *)
Definition prefix_of (tr full : list event) : Prop :=
  exists rest, full = tr ++ rest.

Section Protocols.
Context {W : Type} `{Collaborators W}.

(** At a save point: a primary rank saves, reads the epoch again in the
    world the save left, logs, then synchronises; another rank only
    synchronises. *)
Definition save_protocol (self : SaveCheckpointHook.t) (w : W) : list event :=
  let d := SaveCheckpointHook.checkpoint_dir self in
  let s := SaveCheckpointHook.suffix self in
  if is_dp_rank_0_impl w then
    [EvCurEpoch; EvIsDpRank0; EvSave d s; EvCurEpoch;
     EvLogInfo ("checkpoint for epoch "
                ++ str_of_int (cur_epoch_impl (snd (save_impl d s w)))
                ++ " is saved to " ++ str_of_opt d)%string;
     EvIsInitialized; EvBarrier]
  else [EvCurEpoch; EvIsDpRank0; EvIsInitialized; EvBarrier].

(** Resolve, check, load, log, synchronise; a run whose resolver raises
    ends with the resolver call. *)
Definition load_protocol (self : LoadCheckpointHook.t) (w : W) : list event :=
  let d := LoadCheckpointHook.checkpoint_dir self in
  let e := LoadCheckpointHook.epoch self in
  let asked := if e =? -1 then EvGetLatestCheckpointPath d
               else EvGetCheckpointPath d e in
  match (if e =? -1 then get_latest_checkpoint_path_impl d w
         else get_checkpoint_path_impl d e w) with
  | Ok p =>
      [asked; EvExists p;
       EvLoad p (LoadCheckpointHook.finetune self)
              (LoadCheckpointHook.strict self);
       EvLogInfo ("loaded checkpoint from " ++ p)%string;
       EvIsInitialized; EvBarrier]
  | Raise _ => [asked]
  end.
End Protocols.

(** A hook that saves on the multiples of 3, written with a negative
    interval. *)
Definition save_every_minus_3 : SaveCheckpointHook.t :=
  SaveCheckpointHook.init (-3) None "-best"%string 5.

(** * Properties *)

(** ** The trace check [precedesb] decides [precedes] *)

Lemma existsb_nth_error (p : event -> bool) (tr : list event)
      (i : nat) (a : event) :
  nth_error tr i = Some a -> p a = true -> existsb p tr = true.
Proof.
  intros Hnth Hp. apply existsb_exists. exists a. split; [|exact Hp].
  eapply nth_error_In; eassumption.
Qed.

Lemma precedesb_sound (p q : event -> bool) (tr : list event) :
  precedesb p q tr = true -> precedes p q tr.
Proof.
  induction tr as [|ev tr IH]; intros Hb i j a b Hi Hp Hj Hq.
  - destruct i; discriminate.
  - cbn [precedesb] in Hb. destruct (q ev) eqn:Hqev.
    + apply negb_true_iff in Hb.
      rewrite (existsb_nth_error p _ i a Hi Hp) in Hb. discriminate.
    + destruct j as [|j]; cbn in Hj.
      * injection Hj as <-. congruence.
      * destruct i as [|i]; [lia|]. cbn in Hi.
        apply -> Nat.succ_lt_mono. exact (IH Hb i j a b Hi Hp Hj Hq).
Qed.

Lemma precedesb_complete (p q : event -> bool) (tr : list event) :
  precedes p q tr -> precedesb p q tr = true.
Proof.
  induction tr as [|ev tr IH]; intros Hpre; [reflexivity|].
  cbn [precedesb]. destruct (q ev) eqn:Hqev.
  - apply negb_true_iff. destruct (existsb p (ev :: tr)) eqn:Hex; [|reflexivity].
    apply existsb_exists in Hex. destruct Hex as [a [Hin Hp]].
    apply In_nth_error in Hin. destruct Hin as [i Hi].
    specialize (Hpre i 0%nat a ev Hi Hp eq_refl Hqev). lia.
  - apply IH. intros i j a b Hi Hp Hj Hq.
    apply Nat.succ_lt_mono. exact (Hpre (S i) (S j) a b Hi Hp Hj Hq).
Qed.

(** ** Symbolic execution of a hook *)

Ltac unfold_hook :=
  unfold run, SaveCheckpointHook.after_train_epoch,
    LoadCheckpointHook.before_train,
    trainer_cur_epoch, is_dp_rank_0, dist_is_initialized, osp_exists,
    get_latest_checkpoint_path, get_checkpoint_path,
    trainer_save, trainer_load, logger_info, dist_barrier,
    query, resolver, command, emit, lift, raise, ret, bind;
  cbn [world trace app fst snd].

Ltac branch :=
  match goal with
  | |- context [match ?x with _ => _ end] =>
      lazymatch x with
      | context [match _ with _ => _ end] => fail
      | _ => destruct x eqn:?; cbn [world trace app fst snd] in *
      end
  end.

Ltac branches := repeat branch.

Lemma py_mod_zero (a : Z) : py_mod a 0 = Raise ZeroDivisionError.
Proof. reflexivity. Qed.

Lemma py_mod_nonzero (a b : Z) : b <> 0 -> py_mod a b = Ok (a mod b).
Proof.
  intros Hb. unfold py_mod. destruct (Z.eqb_spec b 0); [contradiction|reflexivity].
Qed.

Section SaveHook.
Context {W : Type} `{Collaborators W}.
Import SaveCheckpointHook.

Local Abbreviation trace_of self w :=
  (trace (snd (run (after_train_epoch self) w))).

(** C1.  With a positive interval, the hook treats the current epoch [E]
    as a save point (it goes on to ask for the data-parallel rank)
    exactly when [E mod I = 0]; it writes exactly when moreover the rank
    is primary; and when [E mod I <> 0] it returns at once: normal
    return, world untouched, nothing called after reading the epoch, so
    neither the save primitive nor the barrier. *)
Theorem after_train_epoch_save_point (self : t) (w : W) :
  0 < interval self ->
  let E := cur_epoch_impl w in
  let out := run (after_train_epoch self) w in
  (called is_rank_query (trace (snd out)) = true
   <-> E mod interval self = 0) /\
  (called is_save (trace (snd out)) = true
   <-> E mod interval self = 0 /\ is_dp_rank_0_impl w = true) /\
  (E mod interval self <> 0 ->
   out = (Ok tt, mkState w [EvCurEpoch]) /\
   called is_save (trace (snd out)) = false /\
   called is_barrier (trace (snd out)) = false).
Proof.
  intros Hpos E out. subst E out. unfold_hook.
  rewrite py_mod_nonzero by lia.
  destruct (Z.eqb_spec (cur_epoch_impl w mod interval self) 0) as [Hz|Hnz].
  - split; [|split].
    + branches; cbn; intuition congruence.
    + branches; cbn; intuition congruence.
    + intros Hne. contradiction.
  - cbn. repeat split; try intros [? ?]; try congruence; try discriminate.
Qed.

(** C4.  At a save point the save primitive is called exactly when this
    participant is the primary data-parallel replica: a primary calls it
    once, with the configured directory and suffix, right after the rank
    query; a non-primary never calls it, and still enters the barrier
    exactly when the process group is initialised. *)
Theorem only_primary_rank_saves (self : t) (w : W) :
  interval self <> 0 ->
  cur_epoch_impl w mod interval self = 0 ->
  called is_save (trace_of self w) = is_dp_rank_0_impl w /\
  (is_dp_rank_0_impl w = true ->
   filter is_save (trace_of self w)
   = [EvSave (checkpoint_dir self) (suffix self)]) /\
  (is_dp_rank_0_impl w = false ->
   calls is_save (trace_of self w) = 0%nat /\
   called is_barrier (trace_of self w) = is_initialized_impl w /\
   (is_initialized_impl w = true ->
    trace_of self w
    = [EvCurEpoch; EvIsDpRank0; EvIsInitialized; EvBarrier])).
Proof.
  intros Hnz Hmod. unfold_hook.
  rewrite py_mod_nonzero by exact Hnz. rewrite Hmod. cbn.
  split; [|split].
  - branches; cbn; congruence.
  - intros Hrank. rewrite Hrank. branches; reflexivity.
  - intros Hrank. rewrite Hrank. cbn.
    destruct (is_initialized_impl w) eqn:Hinit; cbn;
      branches; repeat split; intros; congruence.
Qed.

(** C10.  The modulo of the save-point test is defined for a positive
    interval and a non-negative epoch, with a remainder in [0, I); with
    interval 0 it raises, and so does the hook, for every world, right
    after reading the epoch; with a positive interval and collaborators
    that do not fail the hook returns normally. *)
Theorem modulo_defined_for_positive_interval (self : t) (w : W) :
  (0 < interval self -> 0 <= cur_epoch_impl w ->
   py_mod (cur_epoch_impl w) (interval self)
   = Ok (cur_epoch_impl w mod interval self) /\
   0 <= cur_epoch_impl w mod interval self < interval self) /\
  (interval self = 0 ->
   py_mod (cur_epoch_impl w) (interval self) = Raise ZeroDivisionError /\
   run (after_train_epoch self) w
   = (Raise ZeroDivisionError, mkState w [EvCurEpoch])) /\
  (0 < interval self ->
   (forall d s w', fst (save_impl d s w') = Ok tt) ->
   (forall m w', fst (info_impl m w') = Ok tt) ->
   (forall w', fst (barrier_impl w') = Ok tt) ->
   fst (run (after_train_epoch self) w) = Ok tt).
Proof.
  split; [|split].
  - intros Hpos Hepoch. split.
    + apply py_mod_nonzero. lia.
    + apply Z.mod_pos_bound. exact Hpos.
  - intros Hzero. unfold_hook. rewrite Hzero. split; reflexivity.
  - intros Hpos Hsave Hinfo Hbar. unfold_hook.
    rewrite py_mod_nonzero by lia. cbn.
    branches;
      repeat match goal with
             | Heq : save_impl ?d ?s ?w' = _ |- _ =>
                 let Hs := fresh in
                 pose proof (Hsave d s w') as Hs; rewrite Heq in Hs; clear Heq
             | Heq : info_impl ?m ?w' = _ |- _ =>
                 let Hs := fresh in
                 pose proof (Hinfo m w') as Hs; rewrite Heq in Hs; clear Heq
             | Heq : barrier_impl ?w' = _ |- _ =>
                 let Hs := fresh in
                 pose proof (Hbar w') as Hs; rewrite Heq in Hs; clear Heq
             end; cbn in *; congruence.
Qed.
End SaveHook.

Section LoadHook.
Context {W : Type} `{Collaborators W}.
Import LoadCheckpointHook.

Local Abbreviation trace_of self w :=
  (trace (snd (run (before_train self) w))).

(** A run checks the existence of [path] exactly when the selected
    resolver returned [path]. *)
Lemma checked_path_is_resolved (self : t) (w : W) (path : string) :
  In (EvExists path) (trace_of self w) <->
  (if epoch self =? -1
   then get_latest_checkpoint_path_impl (checkpoint_dir self) w
   else get_checkpoint_path_impl (checkpoint_dir self) (epoch self) w)
  = Ok path.
Proof.
  unfold_hook.
  destruct (epoch self =? -1); unfold_hook; branches; cbn;
    (split;
     [ intros Hin;
       repeat (destruct Hin as [Hin|Hin];
               try discriminate; try contradiction);
       congruence
     | intros Hres; try discriminate;
       injection Hres as ->; right; left; reflexivity ]).
Qed.

(** C2.  The sentinel [-1] asks the latest-checkpoint query, on the
    configured directory; a non-negative epoch asks the exact-epoch
    query, on the directory and that epoch; either way the query is the
    first call of the run, the other query is not called, and a run
    holds exactly one resolution call.  The path the query returns is
    the one whose existence is checked next. *)
Theorem before_train_resolution (self : t) (w : W) :
  (epoch self = -1 ->
   hd_error (trace_of self w)
   = Some (EvGetLatestCheckpointPath (checkpoint_dir self)) /\
   calls is_latest_query (trace_of self w) = 1%nat /\
   calls is_epoch_query (trace_of self w) = 0%nat /\
   (forall path,
      get_latest_checkpoint_path_impl (checkpoint_dir self) w = Ok path ->
      nth_error (trace_of self w) 1 = Some (EvExists path))) /\
  (0 <= epoch self ->
   hd_error (trace_of self w)
   = Some (EvGetCheckpointPath (checkpoint_dir self) (epoch self)) /\
   calls is_epoch_query (trace_of self w) = 1%nat /\
   calls is_latest_query (trace_of self w) = 0%nat /\
   (forall path,
      get_checkpoint_path_impl (checkpoint_dir self) (epoch self) w
      = Ok path ->
      nth_error (trace_of self w) 1 = Some (EvExists path))) /\
  calls is_resolution (trace_of self w) = 1%nat.
Proof.
  split; [|split].
  - intros Hlatest. unfold_hook. rewrite Hlatest. cbn.
    unfold_hook. repeat split; try intros path Hpath;
      branches; try reflexivity; cbn; congruence.
  - intros Hepoch. unfold_hook.
    destruct (Z.eqb_spec (epoch self) (-1)) as [Heq|_]; [lia|].
    unfold_hook. repeat split; try intros path Hpath;
      branches; try reflexivity; cbn; congruence.
  - unfold_hook. destruct (epoch self =? -1);
      unfold_hook; branches; reflexivity.
Qed.

(** C8.  An epoch below [-1] is not a sentinel: the run starts with the
    exact-epoch query on that negative epoch and never calls the
    latest-checkpoint query; over all epochs, the latest-checkpoint query
    is called exactly when the epoch is [-1]. *)
Theorem only_minus_one_means_latest (self : t) (w : W) :
  (epoch self < -1 ->
   hd_error (trace_of self w)
   = Some (EvGetCheckpointPath (checkpoint_dir self) (epoch self)) /\
   calls is_epoch_query (trace_of self w) = 1%nat /\
   called is_latest_query (trace_of self w) = false) /\
  (called is_latest_query (trace_of self w) = true <-> epoch self = -1).
Proof.
  split.
  - intros Hneg. unfold_hook.
    destruct (Z.eqb_spec (epoch self) (-1)) as [Heq|_]; [lia|].
    unfold_hook. repeat split; branches; reflexivity.
  - unfold_hook.
    destruct (Z.eqb_spec (epoch self) (-1)) as [Heq|Hne];
      unfold_hook; branches; cbn; intuition congruence.
Qed.

(** C3.  When the resolved path (the one whose existence the run checks)
    does not exist, the run raises [FileNotFoundError] with the message
    "checkpoint is not found at <path>" for exactly that path; the world
    is untouched, the existence check is the last call of the run, and
    the load primitive is not called. *)
Theorem missing_checkpoint_raises (self : t) (w : W) (path : string) :
  In (EvExists path) (trace_of self w) ->
  exists_impl path w = false ->
  fst (run (before_train self) w)
  = Raise (FileNotFoundError ("checkpoint is not found at " ++ path)%string)
  /\ world (snd (run (before_train self) w)) = w
  /\ last (trace_of self w) EvBarrier = EvExists path
  /\ called is_load (trace_of self w) = false.
Proof.
  intros Hin Hmissing. apply checked_path_is_resolved in Hin.
  revert Hin. unfold_hook.
  destruct (epoch self =? -1); unfold_hook; intros ->; cbn;
    rewrite Hmissing; cbn; repeat split.
Qed.

(** C5.  When the resolved path exists, the load primitive is called
    exactly once, right after the existence check, on that path and with
    the [finetune] and [strict] values of the hook. *)
Theorem existing_checkpoint_loaded_once (self : t) (w : W) (path : string) :
  In (EvExists path) (trace_of self w) ->
  exists_impl path w = true ->
  filter is_load (trace_of self w)
  = [EvLoad path (finetune self) (strict self)]
  /\ calls is_load (trace_of self w) = 1%nat
  /\ nth_error (trace_of self w) 2
     = Some (EvLoad path (finetune self) (strict self)).
Proof.
  intros Hin Hfound. apply checked_path_is_resolved in Hin.
  revert Hin. unfold calls. unfold_hook.
  destruct (epoch self =? -1); unfold_hook; intros ->; cbn;
    rewrite Hfound; cbn; branches; repeat split.
Qed.

(** C9.  A run that finds the resolved path missing calls neither the
    barrier nor the query that guards it; and whenever a run does enter
    the barrier, the resolved path existed and the load primitive was
    called on it and returned normally. *)
Theorem barrier_only_after_successful_load (self : t) (w : W) :
  (forall path,
     In (EvExists path) (trace_of self w) ->
     exists_impl path w = false ->
     called is_barrier (trace_of self w) = false /\
     ~ In EvIsInitialized (trace_of self w)) /\
  (called is_barrier (trace_of self w) = true ->
   exists path,
     In (EvExists path) (trace_of self w) /\
     exists_impl path w = true /\
     In (EvLoad path (finetune self) (strict self)) (trace_of self w) /\
     fst (load_impl path (finetune self) (strict self) w) = Ok tt).
Proof.
  split.
  - intros path Hin Hmissing. apply checked_path_is_resolved in Hin.
    revert Hin. unfold_hook.
    destruct (epoch self =? -1); unfold_hook; intros ->; cbn;
      rewrite Hmissing; cbn; intuition discriminate.
  - unfold_hook.
    destruct (epoch self =? -1); unfold_hook; branches; cbn;
      try discriminate; intros _;
      match goal with
      | |- exists p, (EvExists ?q = _ \/ _) /\ _ => exists q
      | |- exists p, (_ \/ EvExists ?q = _ \/ _) /\ _ => exists q
      end;
      repeat match goal with
             | u : unit |- _ => destruct u
             | Heq : load_impl _ _ _ _ = _ |- _ => rewrite Heq; clear Heq
             end;
      cbn [In fst]; auto 10.
Qed.
End LoadHook.

Section BothHooks.
Context {W : Type} `{Collaborators W}.

Local Abbreviation save_trace sv w :=
  (trace (snd (run (SaveCheckpointHook.after_train_epoch sv) w))).
Local Abbreviation load_trace ld w :=
  (trace (snd (run (LoadCheckpointHook.before_train ld) w))).

(** C6.  In a run of [after_train_epoch] every save call comes strictly
    before every barrier call, and a primary rank that reaches the
    barrier has called save.  In a run of [before_train] resolution
    comes strictly before the existence check, that before the load,
    that before the barrier, and each later step happens only in a run
    that went through the earlier one. *)
Theorem hook_call_order
        (sv : SaveCheckpointHook.t) (ld : LoadCheckpointHook.t) (w : W) :
  (precedes is_save is_barrier (save_trace sv w) /\
   (called is_barrier (save_trace sv w) = true ->
    is_dp_rank_0_impl w = true ->
    called is_save (save_trace sv w) = true)) /\
  (precedes is_resolution is_exists (load_trace ld w) /\
   precedes is_exists is_load (load_trace ld w) /\
   precedes is_load is_barrier (load_trace ld w) /\
   (called is_barrier (load_trace ld w) = true ->
    called is_load (load_trace ld w) = true) /\
   (called is_load (load_trace ld w) = true ->
    called is_exists (load_trace ld w) = true) /\
   (called is_exists (load_trace ld w) = true ->
    called is_resolution (load_trace ld w) = true)).
Proof.
  split.
  - split.
    + apply precedesb_sound. unfold_hook. branches; reflexivity.
    + unfold_hook. branches; cbn; congruence.
  - repeat split; try apply precedesb_sound; unfold_hook;
      destruct (LoadCheckpointHook.epoch ld =? -1); unfold_hook;
      branches; cbn; congruence.
Qed.

(** C7.  A failure of the save primitive leaves [after_train_epoch] as
    that same exception, with the world the primitive left behind, and
    the failed save is the last call of the run (no second attempt, no
    barrier); likewise a failure of the load primitive in
    [before_train].  No run of either hook holds more than one call of
    its primitive. *)
Theorem primitive_failure_propagates
        (sv : SaveCheckpointHook.t) (ld : LoadCheckpointHook.t) (w : W) :
  (forall e w',
     SaveCheckpointHook.interval sv <> 0 ->
     cur_epoch_impl w mod SaveCheckpointHook.interval sv = 0 ->
     is_dp_rank_0_impl w = true ->
     save_impl (SaveCheckpointHook.checkpoint_dir sv)
               (SaveCheckpointHook.suffix sv) w = (Raise e, w') ->
     run (SaveCheckpointHook.after_train_epoch sv) w
     = (Raise e,
        mkState w' [EvCurEpoch; EvIsDpRank0;
                    EvSave (SaveCheckpointHook.checkpoint_dir sv)
                           (SaveCheckpointHook.suffix sv)])) /\
  (forall e w' path,
     In (EvExists path) (load_trace ld w) ->
     exists_impl path w = true ->
     load_impl path (LoadCheckpointHook.finetune ld)
               (LoadCheckpointHook.strict ld) w = (Raise e, w') ->
     fst (run (LoadCheckpointHook.before_train ld) w) = Raise e /\
     world (snd (run (LoadCheckpointHook.before_train ld) w)) = w' /\
     last (load_trace ld w) EvBarrier
     = EvLoad path (LoadCheckpointHook.finetune ld)
              (LoadCheckpointHook.strict ld) /\
     calls is_load (load_trace ld w) = 1%nat) /\
  (calls is_save (save_trace sv w) <= 1)%nat /\
  (calls is_load (load_trace ld w) <= 1)%nat.
Proof.
  split; [|split; [|split]].
  - intros e w' Hnz Hmod Hrank Hsave. unfold_hook.
    rewrite py_mod_nonzero by exact Hnz. rewrite Hmod. cbn.
    rewrite Hrank. cbn. rewrite Hsave. reflexivity.
  - intros e w' path Hin Hfound Hload.
    apply checked_path_is_resolved in Hin.
    revert Hin. unfold calls. unfold_hook.
    destruct (LoadCheckpointHook.epoch ld =? -1); unfold_hook;
      intros ->; cbn; rewrite Hfound; cbn; rewrite Hload;
      repeat split.
  - unfold calls. unfold_hook. branches; cbn; lia.
  - unfold calls. unfold_hook.
    destruct (LoadCheckpointHook.epoch ld =? -1); unfold_hook;
      branches; cbn; lia.
Qed.
End BothHooks.

(** * The properties at work on the simulated world *)

Import SaveCheckpointHook LoadCheckpointHook.

Example str_of_int_samples :
  map str_of_int [0; 7; -12] = ["0"; "7"; "-12"]%string.
Proof. reflexivity. Qed.

(** Interval 2, epochs 1 to 4: the save primitive is called at epochs 2
    and 4 only. *)
Example save_fires_at_2_and_4 :
  map (fun e => called is_save
                  (trace (snd (run (after_train_epoch save_every_2)
                                   (sim_at e true true)))))
      [1; 2; 3; 4]
  = [false; true; false; true].
Proof. reflexivity. Qed.

(** Epoch [-1], latest resolves to an existing file: it is loaded. *)
Example load_latest_scenario :
  trace (snd (run (before_train load_latest) (sim_ckpt7 true true)))
  = [EvGetLatestCheckpointPath (Some "/ckpt"%string);
     EvExists "/ckpt/epoch_7.pt";
     EvLoad "/ckpt/epoch_7.pt" false true;
     EvLogInfo "loaded checkpoint from /ckpt/epoch_7.pt";
     EvIsInitialized; EvBarrier].
Proof. reflexivity. Qed.

Lemma after_train_epoch_save_point_witness :
  0 < interval save_every_2 /\
  called is_save
    (trace (snd (run (after_train_epoch save_every_2) (sim_at 4 true true))))
  = true /\
  run (after_train_epoch save_every_2) (sim_at 3 true true)
  = (Ok tt, mkState (sim_at 3 true true) [EvCurEpoch]).
Proof.
  assert (Hpos : 0 < interval save_every_2) by (simpl; lia).
  split; [exact Hpos|]. split.
  - destruct (after_train_epoch_save_point save_every_2 (sim_at 4 true true)
                                           Hpos) as [_ [Hsave _]].
    apply Hsave. split; reflexivity.
  - destruct (after_train_epoch_save_point save_every_2 (sim_at 3 true true)
                                           Hpos) as [_ [_ Hskip]].
    apply Hskip. vm_compute. lia.
Defined.

Lemma only_primary_rank_saves_witness :
  trace (snd (run (after_train_epoch save_every_2) (sim_at 2 false true)))
  = [EvCurEpoch; EvIsDpRank0; EvIsInitialized; EvBarrier] /\
  filter is_save
    (trace (snd (run (after_train_epoch save_every_2) (sim_at 2 true true))))
  = [EvSave (Some "/ckpt"%string) EmptyString].
Proof.
  split.
  - destruct (only_primary_rank_saves save_every_2 (sim_at 2 false true))
      as [_ [_ Hother]].
    + simpl. lia.
    + reflexivity.
    + destruct (Hother eq_refl) as [_ [_ Htrace]]. apply Htrace. reflexivity.
  - destruct (only_primary_rank_saves save_every_2 (sim_at 2 true true))
      as [_ [Hprimary _]].
    + simpl. lia.
    + reflexivity.
    + apply Hprimary. reflexivity.
Defined.

Lemma modulo_defined_for_positive_interval_witness :
  py_mod 4 2 = Ok 0 /\
  run (after_train_epoch save_every_0) (sim_at 4 true true)
  = (Raise ZeroDivisionError, mkState (sim_at 4 true true) [EvCurEpoch]) /\
  fst (run (after_train_epoch save_every_2) 4) = Ok tt.
Proof.
  split; [|split].
  - destruct (modulo_defined_for_positive_interval
                save_every_2 (sim_at 4 true true)) as [Hdef _].
    destruct Hdef as [Hmod _]; [simpl; lia | simpl; lia | exact Hmod].
  - destruct (modulo_defined_for_positive_interval
                save_every_0 (sim_at 4 true true)) as [_ [Hzero _]].
    destruct Hzero as [_ Hrun]; [reflexivity | exact Hrun].
  - destruct (modulo_defined_for_positive_interval save_every_2 4)
      as [_ [_ Htotal]].
    apply Htotal; [simpl; lia | reflexivity | reflexivity | reflexivity].
Defined.

Lemma before_train_resolution_witness :
  hd_error (trace (snd (run (before_train load_latest) (sim_ckpt7 true true))))
  = Some (EvGetLatestCheckpointPath (Some "/ckpt"%string)) /\
  hd_error
    (trace (snd (run (before_train (load_epoch 5)) (sim_ckpt7 true true))))
  = Some (EvGetCheckpointPath (Some "/ckpt"%string) 5).
Proof.
  split.
  - destruct (before_train_resolution load_latest (sim_ckpt7 true true))
      as [Hlatest _].
    destruct Hlatest as [Hhd _]; [reflexivity | exact Hhd].
  - destruct (before_train_resolution (load_epoch 5) (sim_ckpt7 true true))
      as [_ [Hexact _]].
    destruct Hexact as [Hhd _]; [simpl; lia | exact Hhd].
Defined.

Lemma only_minus_one_means_latest_witness :
  hd_error
    (trace (snd (run (before_train (load_epoch (-2))) (sim_ckpt7 true true))))
  = Some (EvGetCheckpointPath (Some "/ckpt"%string) (-2)) /\
  called is_latest_query
    (trace (snd (run (before_train load_latest) (sim_ckpt7 true true))))
  = true.
Proof.
  split.
  - destruct (only_minus_one_means_latest (load_epoch (-2))
                                          (sim_ckpt7 true true))
      as [Hneg _].
    destruct Hneg as [Hhd _]; [simpl; lia | exact Hhd].
  - destruct (only_minus_one_means_latest load_latest (sim_ckpt7 true true))
      as [_ Hiff].
    apply Hiff. reflexivity.
Defined.

Lemma missing_checkpoint_raises_witness :
  fst (run (before_train (load_epoch 5)) (sim_ckpt7 true true))
  = Raise (FileNotFoundError "checkpoint is not found at /ckpt/epoch_5.pt").
Proof.
  destruct (missing_checkpoint_raises (load_epoch 5) (sim_ckpt7 true true)
                                      "/ckpt/epoch_5.pt")
    as [Hraise _].
  - vm_compute. right. left. reflexivity.
  - reflexivity.
  - exact Hraise.
Defined.

Lemma existing_checkpoint_loaded_once_witness :
  filter is_load
    (trace (snd (run (before_train load_latest) (sim_ckpt7 true true))))
  = [EvLoad "/ckpt/epoch_7.pt" false true].
Proof.
  destruct (existing_checkpoint_loaded_once load_latest (sim_ckpt7 true true)
                                            "/ckpt/epoch_7.pt")
    as [Hload _].
  - vm_compute. right. left. reflexivity.
  - reflexivity.
  - exact Hload.
Defined.

Lemma barrier_only_after_successful_load_witness :
  called is_barrier
    (trace (snd (run (before_train (load_epoch 5)) (sim_ckpt7 true true))))
  = false /\
  exists path,
    In (EvExists path)
       (trace (snd (run (before_train load_latest) (sim_ckpt7 true true)))) /\
    exists_impl path (sim_ckpt7 true true) = true.
Proof.
  split.
  - destruct (barrier_only_after_successful_load (load_epoch 5)
                                                 (sim_ckpt7 true true))
      as [Hmissing _].
    destruct (Hmissing "/ckpt/epoch_5.pt"%string) as [Hbar _].
    + vm_compute. right. left. reflexivity.
    + reflexivity.
    + exact Hbar.
  - destruct (barrier_only_after_successful_load load_latest
                                                 (sim_ckpt7 true true))
      as [_ Hreached].
    destruct Hreached as [path [Hin [Hfound _]]]; [reflexivity|].
    exists path. split; assumption.
Defined.

Lemma hook_call_order_witness :
  (2 < 6)%nat /\
  called is_load
    (trace (snd (run (before_train load_latest) (sim_ckpt7 true true))))
  = true.
Proof.
  destruct (hook_call_order save_every_2 load_latest (sim_ckpt7 true true))
    as [[Hsave _] [_ [_ [_ [Hbar _]]]]].
  split.
  - apply (Hsave 2%nat 6%nat
                 (EvSave (Some "/ckpt"%string) EmptyString) EvBarrier);
      reflexivity.
  - apply Hbar. reflexivity.
Defined.

Lemma primitive_failure_propagates_witness :
  fst (run (after_train_epoch save_every_2) (sim_ckpt7 false true))
  = Raise (CollaboratorError "StorageFailure") /\
  fst (run (before_train load_latest) (sim_ckpt7 false true))
  = Raise (CollaboratorError "StorageFailure").
Proof.
  destruct (primitive_failure_propagates save_every_2 load_latest
                                         (sim_ckpt7 false true))
    as [Hsave [Hload _]].
  split.
  - rewrite (Hsave (CollaboratorError "StorageFailure")
                   (sim_ckpt7 false true));
      [reflexivity | simpl; lia | reflexivity | reflexivity | reflexivity].
  - destruct (Hload (CollaboratorError "StorageFailure")
                    (sim_ckpt7 false true) "/ckpt/epoch_7.pt"%string)
      as [Hraise _].
    + vm_compute. right. left. reflexivity.
    + reflexivity.
    + reflexivity.
    + exact Hraise.
Defined.

(** * Further properties of the hooks *)

Lemma mod_opp_interval_eqb (e i : Z) :
  i <> 0 -> (e mod (- i) =? 0) = (e mod i =? 0).
Proof.
  intros Hi.
  assert (Hiff : e mod (- i) = 0 <-> e mod i = 0).
  { rewrite !Z.mod_divide by lia. apply Z.divide_opp_l. }
  destruct (Z.eqb_spec (e mod i) 0) as [Hz|Hnz].
  - apply Z.eqb_eq. apply Hiff. exact Hz.
  - apply Z.eqb_neq. intros Hz. apply Hnz. apply Hiff. exact Hz.
Qed.

Section SaveHookMore.
Context {W : Type} `{Collaborators W}.
Import SaveCheckpointHook.

Local Abbreviation trace_of self w :=
  (trace (snd (run (after_train_epoch self) w))).

(** X1.  For every non-zero interval, positive or negative, the hook
    treats the epoch as a save point exactly when the interval divides it,
    and the save primitive is called exactly when moreover the rank is
    primary; epoch 0 is a save point for every such interval. *)
Theorem save_point_iff_interval_divides (self : t) (w : W) :
  interval self <> 0 ->
  (called is_rank_query (trace_of self w) = true
   <-> (interval self | cur_epoch_impl w)) /\
  (called is_save (trace_of self w) = true
   <-> (interval self | cur_epoch_impl w) /\ is_dp_rank_0_impl w = true) /\
  (cur_epoch_impl w = 0 -> called is_rank_query (trace_of self w) = true).
Proof.
  intros Hnz.
  assert (Hdiv : cur_epoch_impl w mod interval self = 0
                 <-> (interval self | cur_epoch_impl w))
    by (apply Z.mod_divide; exact Hnz).
  assert (Hrank : called is_rank_query (trace_of self w) = true
                  <-> cur_epoch_impl w mod interval self = 0).
  { unfold_hook. rewrite py_mod_nonzero by exact Hnz.
    destruct (Z.eqb_spec (cur_epoch_impl w mod interval self) 0);
      branches; cbn; intuition congruence. }
  split; [|split].
  - rewrite Hrank. exact Hdiv.
  - rewrite <- Hdiv. unfold_hook. rewrite py_mod_nonzero by exact Hnz.
    destruct (Z.eqb_spec (cur_epoch_impl w mod interval self) 0);
      branches; cbn; intuition congruence.
  - intros Hzero. apply Hrank. rewrite Hzero. apply Z.mod_0_l. exact Hnz.
Qed.

(** X2.  A run does not depend on the sign of the interval nor on the
    priority: the hooks with intervals [i] and [- i] return the same
    result, leave the same world and make the same calls. *)
Theorem interval_sign_is_irrelevant
        (i : Z) (d : option string) (s : string) (p p' : Z) (w : W) :
  run (after_train_epoch (init i d s p)) w
  = run (after_train_epoch (init (- i) d s p')) w.
Proof.
  unfold_hook. cbn [interval checkpoint_dir suffix]. unfold py_mod.
  destruct (Z.eqb_spec i 0) as [->|Hnz]; [reflexivity|].
  destruct (Z.eqb_spec (- i) 0) as [Hz|_]; [lia|].
  cbn [world trace app fst snd].
  rewrite (mod_opp_interval_eqb _ i Hnz). reflexivity.
Qed.

(** X3.  The hook built with the default arguments of [__init__]
    (interval 1, no directory, empty suffix) treats every epoch as a save
    point: in every world it asks for the rank, and the primary rank
    calls the save primitive once, with path [None] and the empty
    suffix. *)
Theorem default_hook_saves_every_epoch (w : W) :
  called is_rank_query (trace_of default w) = true /\
  called is_save (trace_of default w) = is_dp_rank_0_impl w /\
  filter is_save (trace_of default w)
  = if is_dp_rank_0_impl w then [EvSave None EmptyString] else [].
Proof.
  unfold_hook. cbn [interval checkpoint_dir suffix default].
  rewrite py_mod_nonzero by lia. rewrite Z.mod_1_r.
  cbn [Z.eqb world trace app fst snd].
  repeat split; branches; reflexivity.
Qed.

(** X4.  Whatever the collaborators do, the calls of a run that reached
    the rank query are an initial segment of the full sequence (read the
    epoch, ask the rank, save, read the epoch, log, ask the process
    group, barrier, without the middle three on a non-primary rank); the
    calls of any other run are the epoch read alone.  A run that enters
    the barrier made the full sequence, and no run makes more than 7
    calls. *)
Theorem save_trace_follows_protocol (self : t) (w : W) :
  (called is_rank_query (trace_of self w) = true ->
   prefix_of (trace_of self w) (save_protocol self w)) /\
  (called is_rank_query (trace_of self w) = false ->
   trace_of self w = [EvCurEpoch]) /\
  (called is_barrier (trace_of self w) = true ->
   trace_of self w = save_protocol self w) /\
  (List.length (trace_of self w) <= 7)%nat.
Proof.
  unfold prefix_of, save_protocol. unfold_hook. unfold py_mod.
  repeat split; branches; cbn [called existsb is_rank_query is_barrier orb];
    intros; try discriminate; try reflexivity;
    try (eexists; cbn [app]; reflexivity);
    try (cbn [List.length]; lia).
Qed.

(** X6.  The hook logs exactly when the save primitive was called and
    returned normally, and at most once; the message logged is
    "checkpoint for epoch <n> is saved to <dir>", where <n> is the epoch
    read again in the world the save left and <dir> the configured
    directory. *)
Theorem save_logged_iff_saved (self : t) (w : W) :
  (called is_info (trace_of self w) = true
   <-> called is_save (trace_of self w) = true /\
       fst (save_impl (checkpoint_dir self) (suffix self) w) = Ok tt) /\
  (forall msg,
     In (EvLogInfo msg) (trace_of self w) ->
     msg = ("checkpoint for epoch "
            ++ str_of_int
                 (cur_epoch_impl
                    (snd (save_impl (checkpoint_dir self) (suffix self) w)))
            ++ " is saved to " ++ str_of_opt (checkpoint_dir self))%string) /\
  (calls is_info (trace_of self w) <= 1)%nat.
Proof.
  unfold calls. unfold_hook. unfold py_mod.
  split; [|split].
  - branches; cbn [called existsb is_info is_save orb fst];
      repeat match goal with u : unit |- _ => destruct u end;
      intuition congruence.
  - intros msg. branches; cbn [In]; intros Hin;
      repeat (destruct Hin as [Hin|Hin];
              try discriminate; try contradiction);
      injection Hin as <-; reflexivity.
  - branches; cbn [filter is_info List.length]; lia.
Qed.
End SaveHookMore.

Section LoadHookMore.
Context {W : Type} `{Collaborators W}.
Import LoadCheckpointHook.

Local Abbreviation trace_of self w :=
  (trace (snd (run (before_train self) w))).

(** X5.  Whatever the collaborators do, the calls of a run are an initial
    segment of the full sequence: resolve, check existence, load, log,
    ask the process group, barrier.  A run that enters the barrier made
    the full sequence, and no run makes more than 6 calls. *)
Theorem load_trace_follows_protocol (self : t) (w : W) :
  prefix_of (trace_of self w) (load_protocol self w) /\
  (called is_barrier (trace_of self w) = true ->
   trace_of self w = load_protocol self w) /\
  (List.length (trace_of self w) <= 6)%nat.
Proof.
  unfold prefix_of, load_protocol. unfold_hook.
  repeat split; destruct (epoch self =? -1); unfold_hook; branches;
    cbn [called existsb is_barrier orb];
    intros; try discriminate; try reflexivity;
    try (eexists; cbn [app]; reflexivity);
    try (cbn [List.length]; lia).
Qed.

(** X7.  A normal return of [before_train] means a checkpoint was loaded:
    the resolved path existed, the load primitive was called once on it
    and returned normally, and the one message logged is
    "loaded checkpoint from <path>". *)
Theorem normal_return_means_loaded (self : t) (w : W) :
  fst (run (before_train self) w) = Ok tt ->
  exists path,
    In (EvExists path) (trace_of self w) /\
    exists_impl path w = true /\
    filter is_load (trace_of self w)
    = [EvLoad path (finetune self) (strict self)] /\
    fst (load_impl path (finetune self) (strict self) w) = Ok tt /\
    filter is_info (trace_of self w)
    = [EvLogInfo ("loaded checkpoint from " ++ path)%string].
Proof.
  unfold_hook.
  destruct (epoch self =? -1); unfold_hook; branches;
    intros Hok; try discriminate;
    match goal with
    | Hex : exists_impl ?q _ = true |- _ => exists q
    end;
    repeat match goal with
           | u : unit |- _ => destruct u
           | Heq : load_impl _ _ _ _ = _ |- _ => rewrite Heq; clear Heq
           end;
    cbn [In filter is_load is_info fst]; auto 10.
Qed.

(** X9.  A resolver that raises ends the run at once: the exception of
    the selected resolver (the latest query for epoch [-1], the
    exact-epoch query otherwise) is the result of [before_train], the
    world is untouched, and the resolver call is the only call (no
    existence check, no load, no barrier). *)
Theorem resolver_failure_propagates (self : t) (w : W) (e : exn) :
  (if epoch self =? -1
   then get_latest_checkpoint_path_impl (checkpoint_dir self) w
   else get_checkpoint_path_impl (checkpoint_dir self) (epoch self) w)
  = Raise e ->
  run (before_train self) w
  = (Raise e,
     mkState w [if epoch self =? -1
                then EvGetLatestCheckpointPath (checkpoint_dir self)
                else EvGetCheckpointPath (checkpoint_dir self) (epoch self)]).
Proof.
  unfold_hook.
  destruct (epoch self =? -1); unfold_hook; intros ->; reflexivity.
Qed.

(** X12.  The message of the missing-checkpoint error determines the path:
    two runs, of any two hooks in any two worlds, that both find their
    resolved path missing and raise the same exception checked the same
    path. *)
Theorem not_found_message_determines_path
        (self1 self2 : t) (w1 w2 : W) (path1 path2 : string) :
  In (EvExists path1) (trace_of self1 w1) ->
  exists_impl path1 w1 = false ->
  In (EvExists path2) (trace_of self2 w2) ->
  exists_impl path2 w2 = false ->
  fst (run (before_train self1) w1) = fst (run (before_train self2) w2) ->
  path1 = path2.
Proof.
  intros Hin1 Hmiss1 Hin2 Hmiss2.
  apply checked_path_is_resolved in Hin1.
  apply checked_path_is_resolved in Hin2.
  revert Hin1 Hin2. unfold_hook.
  destruct (epoch self1 =? -1); destruct (epoch self2 =? -1); unfold_hook;
    intros -> ->; cbn [world trace app fst snd];
    rewrite Hmiss1, Hmiss2; cbn [fst];
    intros Heq; injection Heq as Heq; exact Heq.
Qed.
End LoadHookMore.

Section BothHooksMore.
Context {W : Type} `{Collaborators W}.

Local Abbreviation save_trace sv w :=
  (trace (snd (run (SaveCheckpointHook.after_train_epoch sv) w))).
Local Abbreviation load_trace ld w :=
  (trace (snd (run (LoadCheckpointHook.before_train ld) w))).

(** X8.  The hooks use disjoint collaborators.  [after_train_epoch] never
    resolves a path, checks a file or loads; [before_train] never saves,
    never asks for the data-parallel rank (every rank loads) and never
    reads the epoch. *)
Theorem hooks_use_disjoint_collaborators
        (sv : SaveCheckpointHook.t) (ld : LoadCheckpointHook.t) (w : W) :
  (forall ev, In ev (save_trace sv w) ->
              is_resolution ev = false /\ is_exists ev = false /\
              is_load ev = false) /\
  (forall ev, In ev (load_trace ld w) ->
              is_save ev = false /\ is_rank_query ev = false /\
              is_epoch_read ev = false).
Proof.
  split; intros ev; unfold_hook; unfold py_mod;
    try destruct (LoadCheckpointHook.epoch ld =? -1); unfold_hook;
    branches; cbn [In]; intros Hin;
    repeat (destruct Hin as [<-|Hin]; [repeat split|]);
    contradiction.
Qed.

(** X10.  Each hook enters the barrier at most once per run, and a barrier
    call is the last call of its run: nothing is called after the
    synchronisation. *)
Theorem barrier_is_last_call
        (sv : SaveCheckpointHook.t) (ld : LoadCheckpointHook.t) (w : W) :
  (calls is_barrier (save_trace sv w) <= 1)%nat /\
  (calls is_barrier (load_trace ld w) <= 1)%nat /\
  (called is_barrier (save_trace sv w) = true ->
   last (save_trace sv w) EvCurEpoch = EvBarrier) /\
  (called is_barrier (load_trace ld w) = true ->
   last (load_trace ld w) EvCurEpoch = EvBarrier).
Proof.
  unfold calls. repeat split; unfold_hook; unfold py_mod;
    try destruct (LoadCheckpointHook.epoch ld =? -1); unfold_hook;
    branches;
    cbn [called existsb is_barrier orb filter List.length last];
    intros; try discriminate; try reflexivity; try lia.
Qed.

(** X11.  The barrier is guarded by the process-group query: where the
    process group is never initialised, neither hook enters the barrier,
    and a hook that enters it has asked the query before. *)
Theorem barrier_needs_process_group
        (sv : SaveCheckpointHook.t) (ld : LoadCheckpointHook.t) (w : W) :
  ((forall w', is_initialized_impl w' = false) ->
   called is_barrier (save_trace sv w) = false /\
   called is_barrier (load_trace ld w) = false) /\
  precedes is_group_query is_barrier (save_trace sv w) /\
  precedes is_group_query is_barrier (load_trace ld w) /\
  (called is_barrier (save_trace sv w) = true ->
   called is_group_query (save_trace sv w) = true) /\
  (called is_barrier (load_trace ld w) = true ->
   called is_group_query (load_trace ld w) = true).
Proof.
  split; [|repeat split].
  - intros Hnone. split; unfold_hook; unfold py_mod;
      try destruct (LoadCheckpointHook.epoch ld =? -1); unfold_hook;
      branches; try reflexivity;
      match goal with
      | Heq : is_initialized_impl ?w' = true |- _ =>
          rewrite (Hnone w') in Heq; discriminate
      end.
  - apply precedesb_sound. unfold_hook. unfold py_mod.
    branches; reflexivity.
  - apply precedesb_sound. unfold_hook.
    destruct (LoadCheckpointHook.epoch ld =? -1); unfold_hook;
      branches; reflexivity.
  - unfold_hook. unfold py_mod. branches; cbn; congruence.
  - unfold_hook.
    destruct (LoadCheckpointHook.epoch ld =? -1); unfold_hook;
      branches; cbn; congruence.
Qed.
(** X13.  The hooks change the world only through their commands: a run
    of [after_train_epoch] that called neither the save primitive nor the
    barrier, and a run of [before_train] that did not call the load
    primitive, leave the world as they found it. *)
Theorem world_changes_only_through_commands
        (sv : SaveCheckpointHook.t) (ld : LoadCheckpointHook.t) (w : W) :
  (called is_save (save_trace sv w) = false ->
   called is_barrier (save_trace sv w) = false ->
   world (snd (run (SaveCheckpointHook.after_train_epoch sv) w)) = w) /\
  (called is_load (load_trace ld w) = false ->
   world (snd (run (LoadCheckpointHook.before_train ld) w)) = w).
Proof.
  split; unfold_hook; unfold py_mod;
    try destruct (LoadCheckpointHook.epoch ld =? -1); unfold_hook;
    branches; cbn [called existsb is_save is_barrier is_load orb];
    intros; try discriminate; reflexivity.
Qed.

(** X14.  On the primary rank, a normal return of [after_train_epoch] at
    a save point means the checkpoint was written: the save primitive was
    called once, with the configured directory and suffix, and returned
    normally, and one message was logged. *)
Theorem normal_return_means_saved (sv : SaveCheckpointHook.t) (w : W) :
  fst (run (SaveCheckpointHook.after_train_epoch sv) w) = Ok tt ->
  called is_rank_query (save_trace sv w) = true ->
  is_dp_rank_0_impl w = true ->
  filter is_save (save_trace sv w)
  = [EvSave (SaveCheckpointHook.checkpoint_dir sv)
            (SaveCheckpointHook.suffix sv)] /\
  fst (save_impl (SaveCheckpointHook.checkpoint_dir sv)
                 (SaveCheckpointHook.suffix sv) w) = Ok tt /\
  calls is_info (save_trace sv w) = 1%nat.
Proof.
  unfold calls. unfold_hook. unfold py_mod.
  branches; cbn [called existsb is_rank_query orb];
    intros Hok Hpoint Hrank; try discriminate;
    repeat match goal with u : unit |- _ => destruct u end;
    repeat split.
Qed.
End BothHooksMore.

(** * The further properties at work on the simulated worlds *)

Lemma save_point_iff_interval_divides_witness :
  called is_save
    (trace (snd (run (after_train_epoch save_every_minus_3)
                     (sim_at 6 true false))))
  = true /\
  called is_rank_query
    (trace (snd (run (after_train_epoch save_every_minus_3)
                     (sim_at 0 false false))))
  = true.
Proof.
  assert (Hnz : interval save_every_minus_3 <> 0) by (simpl; lia).
  split.
  - destruct (save_point_iff_interval_divides
                save_every_minus_3 (sim_at 6 true false) Hnz)
      as [_ [Hsave _]].
    apply Hsave. split; [exists (-2); reflexivity | reflexivity].
  - destruct (save_point_iff_interval_divides
                save_every_minus_3 (sim_at 0 false false) Hnz)
      as [_ [_ Hzero]].
    apply Hzero. reflexivity.
Defined.

Lemma save_trace_follows_protocol_witness :
  trace (snd (run (after_train_epoch save_every_2) (sim_at 2 true true)))
  = [EvCurEpoch; EvIsDpRank0; EvSave (Some "/ckpt"%string) EmptyString;
     EvCurEpoch; EvLogInfo "checkpoint for epoch 2 is saved to /ckpt";
     EvIsInitialized; EvBarrier] /\
  trace (snd (run (after_train_epoch save_every_2) (sim_at 3 true true)))
  = [EvCurEpoch].
Proof.
  split.
  - destruct (save_trace_follows_protocol save_every_2 (sim_at 2 true true))
      as [_ [_ [Hfull _]]].
    rewrite Hfull; reflexivity.
  - destruct (save_trace_follows_protocol save_every_2 (sim_at 3 true true))
      as [_ [Hskip _]].
    apply Hskip. reflexivity.
Defined.

Lemma save_logged_iff_saved_witness :
  called is_info
    (trace (snd (run (after_train_epoch save_every_2) (sim_at 2 true true))))
  = true /\
  "checkpoint for epoch 2 is saved to /ckpt"%string
  = ("checkpoint for epoch "
     ++ str_of_int
          (cur_epoch_impl
             (snd (save_impl (SaveCheckpointHook.checkpoint_dir save_every_2)
                             (SaveCheckpointHook.suffix save_every_2) (sim_at 2 true true))))
     ++ " is saved to " ++ str_of_opt (SaveCheckpointHook.checkpoint_dir save_every_2))%string.
Proof.
  destruct (save_logged_iff_saved save_every_2 (sim_at 2 true true))
    as [Hiff [Hmsg _]].
  split.
  - apply Hiff. split; reflexivity.
  - apply Hmsg. vm_compute. do 4 right. left. reflexivity.
Defined.

Lemma load_trace_follows_protocol_witness :
  trace (snd (run (before_train load_latest) (sim_ckpt7 true true)))
  = load_protocol load_latest (sim_ckpt7 true true).
Proof.
  destruct (load_trace_follows_protocol load_latest (sim_ckpt7 true true))
    as [_ [Hfull _]].
  apply Hfull. reflexivity.
Defined.

Lemma normal_return_means_loaded_witness :
  exists path,
    In (EvExists path)
       (trace (snd (run (before_train load_latest) (sim_ckpt7 true true)))) /\
    exists_impl path (sim_ckpt7 true true) = true /\
    filter is_load
      (trace (snd (run (before_train load_latest) (sim_ckpt7 true true))))
    = [EvLoad path (finetune load_latest) (strict load_latest)].
Proof.
  destruct (normal_return_means_loaded load_latest (sim_ckpt7 true true))
    as [path [Hin [Hfound [Hload _]]]]; [reflexivity|].
  exists path. repeat split; assumption.
Defined.

Lemma resolver_failure_propagates_witness :
  run (before_train load_latest) (sim_with [] None true true)
  = (Raise (CollaboratorError "no checkpoint"),
     mkState (sim_with [] None true true)
             [EvGetLatestCheckpointPath (Some "/ckpt"%string)]).
Proof.
  apply (resolver_failure_propagates
           load_latest (sim_with [] None true true)
           (CollaboratorError "no checkpoint")).
  reflexivity.
Defined.

Lemma not_found_message_determines_path_witness :
  sim_path (Some "/ckpt"%string) 5 EmptyString = "/ckpt/epoch_5.pt"%string.
Proof.
  apply (not_found_message_determines_path
           (load_epoch 5) (load_epoch 5)
           (sim_ckpt7 true true) (sim_ckpt7 false false)).
  - vm_compute. right. left. reflexivity.
  - reflexivity.
  - vm_compute. right. left. reflexivity.
  - reflexivity.
  - reflexivity.
Defined.

Lemma hooks_use_disjoint_collaborators_witness :
  is_load EvBarrier = false /\ is_rank_query EvBarrier = false.
Proof.
  destruct (hooks_use_disjoint_collaborators
              save_every_2 load_latest (sim_ckpt7 true true))
    as [Hsave Hload].
  split.
  - destruct (Hsave EvBarrier) as [_ [_ Hnoload]]; [|exact Hnoload].
    vm_compute. do 6 right. left. reflexivity.
  - destruct (Hload EvBarrier) as [_ [Hnorank _]]; [|exact Hnorank].
    vm_compute. do 5 right. left. reflexivity.
Defined.

Lemma barrier_is_last_call_witness :
  last (trace (snd (run (after_train_epoch save_every_2)
                        (sim_at 2 false true)))) EvCurEpoch
  = EvBarrier /\
  last (trace (snd (run (before_train load_latest)
                        (sim_ckpt7 true true)))) EvCurEpoch
  = EvBarrier.
Proof.
  destruct (barrier_is_last_call save_every_2 load_latest
                                 (sim_at 2 false true))
    as [_ [_ [Hsave _]]].
  destruct (barrier_is_last_call save_every_2 load_latest
                                 (sim_ckpt7 true true))
    as [_ [_ [_ Hload]]].
  split; [apply Hsave | apply Hload]; reflexivity.
Defined.

Lemma barrier_needs_process_group_witness :
  called is_barrier (trace (snd (run (after_train_epoch save_every_2) 4)))
  = false /\
  called is_group_query
    (trace (snd (run (before_train load_latest) (sim_ckpt7 true true))))
  = true.
Proof.
  split.
  - destruct (barrier_needs_process_group save_every_2 load_latest 4)
      as [Hnone _].
    destruct Hnone as [Hsave _]; [reflexivity | exact Hsave].
  - destruct (barrier_needs_process_group save_every_2 load_latest
                                          (sim_ckpt7 true true))
      as [_ [_ [_ [_ Hload]]]].
    apply Hload. reflexivity.
Defined.

Lemma world_changes_only_through_commands_witness :
  world (snd (run (after_train_epoch save_every_2) (sim_at 3 true true)))
  = sim_at 3 true true /\
  world (snd (run (before_train (load_epoch 5)) (sim_ckpt7 true true)))
  = sim_ckpt7 true true.
Proof.
  split.
  - destruct (world_changes_only_through_commands
                save_every_2 load_latest (sim_at 3 true true))
      as [Hsave _].
    apply Hsave; reflexivity.
  - destruct (world_changes_only_through_commands
                save_every_2 (load_epoch 5) (sim_ckpt7 true true))
      as [_ Hload].
    apply Hload; reflexivity.
Defined.

Lemma normal_return_means_saved_witness :
  filter is_save
    (trace (snd (run (after_train_epoch save_every_2) (sim_at 2 true true))))
  = [EvSave (Some "/ckpt"%string) EmptyString].
Proof.
  destruct (normal_return_means_saved save_every_2 (sim_at 2 true true))
    as [Hsave _]; [reflexivity | reflexivity | reflexivity | exact Hsave].
Defined.
